(** * c-abi-libp2p / examples / cpp / ping.cpp

    A verification model of the C++ host example that loads the
    [cabi_rust_libp2p] shared library, resolves its five exported entry
    points into a table and releases the library again.

    The operating system's loader is the only collaborator of the program.
    It is modelled as a record of oracles ([OS]); the program itself is
    written in a small trace monad, one primitive per macro of the source
    ([LOAD_LIB], [GET_PROC], [CLOSE_LIB]) and one for [cerr <<]. *)

From Stdlib Require Import ZArith String Ascii List Bool Lia.
Import ListNotations.

Local Open Scope string_scope.
Local Open Scope list_scope.
Local Open Scope Z_scope.

(** ** Pointers and handles *)

(** [void*], [HMODULE] and the five function-pointer types are addresses. *)
Definition Ptr := Z.
Definition LibHandle := Ptr.
Definition NULL : Ptr := 0.

(** Contextual conversion of a pointer to [bool] ([if (!lib)], [a && b]). *)
Definition truthy (p : Ptr) : bool := negb (p =? NULL).

(** ** Status codes (ping.cpp, lines 24-31) *)

Definition CABI_STATUS_SUCCESS : Z := 0.
Definition CABI_STATUS_NULL_POINTER : Z := 1.
Definition CABI_STATUS_INVALID_ARGUMENT : Z := 2.
Definition CABI_STATUS_INTERNAL_ERROR : Z := 3.

(** Every [CABI_STATUS_*] constant the file declares, in declaration order. *)
Definition status_constants : list (string * Z) :=
  [ ("CABI_STATUS_SUCCESS", CABI_STATUS_SUCCESS);
    ("CABI_STATUS_NULL_POINTER", CABI_STATUS_NULL_POINTER);
    ("CABI_STATUS_INVALID_ARGUMENT", CABI_STATUS_INVALID_ARGUMENT);
    ("CABI_STATUS_INTERNAL_ERROR", CABI_STATUS_INTERNAL_ERROR) ].

(** ** The ABI table (ping.cpp, lines 39-46) *)

Record CabiRustLibp2p : Type := mkAbi {
  InitTracing : Ptr;
  NewNode : Ptr;
  ListenNode : Ptr;
  DialNode : Ptr;
  FreeNode : Ptr
}.

(** [CabiRustLibp2p abi;] : every member has a [{}] initializer. *)
Definition abi_default : CabiRustLibp2p := mkAbi NULL NULL NULL NULL NULL.

(** ** The platform and the loader *)

Inductive Platform : Type := Win32 | Posix.

Definition LIB_NAME (pf : Platform) : string :=
  match pf with
  | Win32 => "cabi_rust_libp2p.dll"
  | Posix => "cabi_rust_libp2p.so"
  end.

(** What the operating system answers: [dl_open] stands for
    [LoadLibraryA] / [dlopen], [dl_sym] for [GetProcAddress] / [dlsym]. *)
Record OS : Type := mkOS {
  platform : Platform;
  dl_open : string -> LibHandle;
  dl_sym : LibHandle -> string -> Ptr
}.

(** ** Observable events *)

Inductive Event : Type :=
| EvLoad (path : string) (result : LibHandle)
| EvGetProc (lib : LibHandle) (name : string) (result : Ptr)
| EvClose (lib : LibHandle)
| EvCerr (text : string)
| EvCall (fn : Ptr).

Definition event_eqb (a b : Event) : bool :=
  match a, b with
  | EvLoad p r, EvLoad p' r' => String.eqb p p' && (r =? r')
  | EvGetProc l n r, EvGetProc l' n' r' =>
      (l =? l') && String.eqb n n' && (r =? r')
  | EvClose l, EvClose l' => l =? l'
  | EvCerr t, EvCerr t' => String.eqb t t'
  | EvCall f, EvCall f' => f =? f'
  | _, _ => false
  end.

Definition is_call (e : Event) : bool :=
  match e with EvCall _ => true | _ => false end.

Definition is_get_proc (e : Event) : bool :=
  match e with EvGetProc _ _ _ => true | _ => false end.

Definition is_close (e : Event) : bool :=
  match e with EvClose _ => true | _ => false end.

Definition is_cerr (e : Event) : bool :=
  match e with EvCerr _ => true | _ => false end.

(** The calls that cross the library boundary: everything but [cerr]. *)
Definition boundary (tr : list Event) : list Event :=
  filter (fun e => negb (is_cerr e)) tr.

(** What has been written to [cerr], in order. *)
Fixpoint stderr_text (tr : list Event) : string :=
  match tr with
  | [] => ""
  | EvCerr t :: tr' => String.append t (stderr_text tr')
  | _ :: tr' => stderr_text tr'
  end.

(** Handles that were acquired and not released so far. *)
Fixpoint remove_one (h : LibHandle) (hs : list LibHandle) : list LibHandle :=
  match hs with
  | [] => []
  | x :: hs' => if x =? h then hs' else x :: remove_one h hs'
  end.

Fixpoint held_from (hs : list LibHandle) (tr : list Event) : list LibHandle :=
  match tr with
  | [] => hs
  | EvLoad _ h :: tr' => held_from (if truthy h then h :: hs else hs) tr'
  | EvClose h :: tr' => held_from (remove_one h hs) tr'
  | _ :: tr' => held_from hs tr'
  end.

Definition held (tr : list Event) : list LibHandle := held_from [] tr.

(** [subseqb xs tr]: the events [xs] occur in [tr] in this order. *)
Fixpoint subseqb (xs tr : list Event) : bool :=
  match xs, tr with
  | [], _ => true
  | _ :: _, [] => false
  | x :: xs', e :: tr' =>
      if event_eqb x e then subseqb xs' tr' else subseqb xs tr'
  end.

Definition is_load (e : Event) : bool :=
  match e with EvLoad _ _ => true | _ => false end.

(** [disciplined hs tr]: walking [tr] with the handles [hs] held, every
    lookup and every release names a handle that is held at that moment
    (loaded with a non-null result and not released since), and a call
    through a function pointer happens only while some handle is held. *)
Fixpoint disciplined (hs : list LibHandle) (tr : list Event) : bool :=
  match tr with
  | [] => true
  | EvLoad _ h :: tr' => disciplined (if truthy h then h :: hs else hs) tr'
  | EvGetProc l _ _ :: tr' => existsb (Z.eqb l) hs && disciplined hs tr'
  | EvClose l :: tr' =>
      existsb (Z.eqb l) hs && disciplined (remove_one l hs) tr'
  | EvCerr _ :: tr' => disciplined hs tr'
  | EvCall _ :: tr' =>
      match hs with [] => false | _ :: _ => disciplined hs tr' end
  end.

(** ** The trace monad *)

Definition M (A : Type) : Type := list Event -> A * list Event.

Definition ret {A : Type} (a : A) : M A := fun tr => (a, tr).

Definition bind {A B : Type} (c : M A) (k : A -> M B) : M B :=
  fun tr => let (a, tr') := c tr in k a tr'.

Definition emit (e : Event) : M unit := fun tr => (tt, tr ++ [e]).

Notation "x <- c ;; k" := (bind c (fun x => k))
  (at level 61, c at next level, right associativity).
Notation "c ;; k" := (bind c (fun _ => k))
  (at level 61, right associativity).

(** ** The program *)

Definition nl : string := String (ascii_of_nat 10) EmptyString.

Definition MSG_LOAD_ERROR : string := "Error on loading Lib:".
Definition MSG_MISSING : string :=
  String.append "Missing required functions in library " nl.

Section Driver.

Variable os : OS.

Definition LOAD_LIB (path : string) : M LibHandle :=
  let h := dl_open os path in
  emit (EvLoad path h) ;; ret h.

Definition GET_PROC (lib : LibHandle) (name : string) : M Ptr :=
  let p := dl_sym os lib name in
  emit (EvGetProc lib name p) ;; ret p.

Definition CLOSE_LIB (lib : LibHandle) : M unit := emit (EvClose lib).

(** One [cerr << text]. *)
Definition cerr_put (text : string) : M unit := emit (EvCerr text).

(** [bool loadAbi(LibHandle lib, CabiRustLibp2p& abi)]: the table is passed
    by reference, so the model returns it next to the result. *)
Definition loadAbi (lib : LibHandle) (abi : CabiRustLibp2p)
  : M (bool * CabiRustLibp2p) :=
  p <- GET_PROC lib "cabi_init_tracing" ;;
  let abi := mkAbi p (NewNode abi) (ListenNode abi) (DialNode abi) (FreeNode abi) in
  p <- GET_PROC lib "cabi_node_new" ;;
  let abi := mkAbi (InitTracing abi) p (ListenNode abi) (DialNode abi) (FreeNode abi) in
  p <- GET_PROC lib "cabi_node_listen" ;;
  let abi := mkAbi (InitTracing abi) (NewNode abi) p (DialNode abi) (FreeNode abi) in
  p <- GET_PROC lib "cabi_node_dial" ;;
  let abi := mkAbi (InitTracing abi) (NewNode abi) (ListenNode abi) p (FreeNode abi) in
  p <- GET_PROC lib "cabi_node_free" ;;
  let abi := mkAbi (InitTracing abi) (NewNode abi) (ListenNode abi) (DialNode abi) p in
  ret (truthy (InitTracing abi) && truthy (NewNode abi) &&
       truthy (ListenNode abi) && truthy (DialNode abi) && truthy (FreeNode abi),
       abi).

(** [int main()]; the value is the process exit code. *)
Definition main : M Z :=
  lib <- LOAD_LIB (LIB_NAME (platform os)) ;;
  if negb (truthy lib) then
    cerr_put MSG_LOAD_ERROR ;;
    cerr_put (LIB_NAME (platform os)) ;;
    cerr_put nl ;;
    ret 1
  else
    r <- loadAbi lib abi_default ;;
    (if fst r then cerr_put MSG_MISSING else ret tt) ;;
    CLOSE_LIB lib ;;
    ret 0.

(** A run of the process from an empty trace. *)
Definition run_main : Z * list Event := main [].
Definition exit_code : Z := fst run_main.
Definition trace : list Event := snd run_main.

(** The handle [main] works with and the table it ends up holding. *)
Definition main_lib : LibHandle := dl_open os (LIB_NAME (platform os)).
Definition main_abi : CabiRustLibp2p :=
  snd (fst (loadAbi main_lib abi_default [])).
Definition abi_valid : bool :=
  fst (fst (loadAbi main_lib abi_default [])).

End Driver.

(** ** Concrete operating systems used in examples *)

Definition sym_complete (name : string) : Ptr :=
  if String.eqb name "cabi_init_tracing" then 4112
  else if String.eqb name "cabi_node_new" then 4128
  else if String.eqb name "cabi_node_listen" then 4144
  else if String.eqb name "cabi_node_dial" then 4160
  else if String.eqb name "cabi_node_free" then 4176
  else NULL.

(** The library is found and exports all five symbols. *)
Definition os_complete : OS :=
  mkOS Posix (fun _ => 4096) (fun _ name => sym_complete name).

(** The library is found but does not export [cabi_node_free]. *)
Definition os_no_free : OS :=
  mkOS Posix (fun _ => 4096)
       (fun _ name =>
          if String.eqb name "cabi_node_free" then NULL else sym_complete name).

(** The library file is not on the search path. *)
Definition os_absent : OS := mkOS Posix (fun _ => NULL) (fun _ _ => NULL).

(** An operating system that answers the five lookups with given values. *)
Definition os_with (pf : Platform) (h : LibHandle) (p1 p2 p3 p4 p5 : Ptr) : OS :=
  mkOS pf (fun _ => h)
       (fun _ name =>
          if String.eqb name "cabi_init_tracing" then p1
          else if String.eqb name "cabi_node_new" then p2
          else if String.eqb name "cabi_node_listen" then p3
          else if String.eqb name "cabi_node_dial" then p4
          else if String.eqb name "cabi_node_free" then p5
          else NULL).

(** Like [os_complete] for the library of [main], but other files load
    too and every other symbol name resolves as well. *)
Definition os_crowded : OS :=
  mkOS Posix
       (fun path => if String.eqb path "cabi_rust_libp2p.so" then 4096 else 8192)
       (fun lib name =>
          if lib =? 4096
          then (if sym_complete name =? NULL then 4192 else sym_complete name)
          else 12288).

(** ** What the claims of the specification say, as predicates on a run *)

(** The five lookups of [loadAbi], with their answers. *)
Definition resolve_events (os : OS) (lib : LibHandle) : list Event :=
  [ EvGetProc lib "cabi_init_tracing" (dl_sym os lib "cabi_init_tracing");
    EvGetProc lib "cabi_node_new" (dl_sym os lib "cabi_node_new");
    EvGetProc lib "cabi_node_listen" (dl_sym os lib "cabi_node_listen");
    EvGetProc lib "cabi_node_dial" (dl_sym os lib "cabi_node_dial");
    EvGetProc lib "cabi_node_free" (dl_sym os lib "cabi_node_free") ].

(** The table whose fields are the answers of the five lookups. *)
Definition resolved_abi (os : OS) (lib : LibHandle) : CabiRustLibp2p :=
  mkAbi (dl_sym os lib "cabi_init_tracing")
        (dl_sym os lib "cabi_node_new")
        (dl_sym os lib "cabi_node_listen")
        (dl_sym os lib "cabi_node_dial")
        (dl_sym os lib "cabi_node_free").

(** The lifecycle of the specification's Host Driver, read in the weakest
    way: the listen and dial steps may be empty, every other step occurs
    once, in this order. *)
Definition spec_lifecycle (os : OS) : list Event :=
  let lib := main_lib os in
  let abi := main_abi os in
  [EvLoad (LIB_NAME (platform os)) lib]
  ++ resolve_events os lib
  ++ [EvCall (InitTracing abi); EvCall (NewNode abi); EvCall (FreeNode abi);
      EvClose lib].

(** The lifecycle the source has: load, five lookups, release. *)
Definition code_lifecycle (os : OS) : list Event :=
  let lib := main_lib os in
  [EvLoad (LIB_NAME (platform os)) lib]
  ++ resolve_events os lib
  ++ [EvClose lib].

(** ** Equations of the program *)

Lemma truthy_true (p : Ptr) : truthy p = true <-> p <> NULL.
Proof.
  unfold truthy. rewrite negb_true_iff, Z.eqb_neq. tauto.
Qed.

Lemma truthy_false (p : Ptr) : truthy p = false <-> p = NULL.
Proof.
  unfold truthy. rewrite negb_false_iff, Z.eqb_eq. tauto.
Qed.

Lemma loadAbi_run (os : OS) (lib : LibHandle) (abi : CabiRustLibp2p)
      (tr : list Event) :
  loadAbi os lib abi tr =
  ((truthy (dl_sym os lib "cabi_init_tracing")
    && truthy (dl_sym os lib "cabi_node_new")
    && truthy (dl_sym os lib "cabi_node_listen")
    && truthy (dl_sym os lib "cabi_node_dial")
    && truthy (dl_sym os lib "cabi_node_free"),
    resolved_abi os lib),
   tr ++ resolve_events os lib).
Proof.
  unfold loadAbi, GET_PROC, bind, emit, ret, resolved_abi, resolve_events.
  cbn [InitTracing NewNode ListenNode DialNode FreeNode].
  rewrite <- !app_assoc. reflexivity.
Qed.

Lemma abi_valid_eq (os : OS) :
  abi_valid os =
  truthy (InitTracing (main_abi os)) && truthy (NewNode (main_abi os))
  && truthy (ListenNode (main_abi os)) && truthy (DialNode (main_abi os))
  && truthy (FreeNode (main_abi os)).
Proof.
  unfold abi_valid, main_abi. rewrite loadAbi_run. reflexivity.
Qed.

Lemma main_abi_eq (os : OS) : main_abi os = resolved_abi os (main_lib os).
Proof.
  unfold main_abi. rewrite loadAbi_run. reflexivity.
Qed.

Lemma main_run_absent (os : OS) :
  main_lib os = NULL ->
  run_main os =
  (1, [ EvLoad (LIB_NAME (platform os)) NULL;
        EvCerr MSG_LOAD_ERROR;
        EvCerr (LIB_NAME (platform os));
        EvCerr nl ]).
Proof.
  unfold main_lib. intros H.
  unfold run_main, main, LOAD_LIB, cerr_put, bind, emit, ret.
  rewrite H. reflexivity.
Qed.

Lemma main_run_loaded (os : OS) :
  main_lib os <> NULL ->
  run_main os =
  (0, [EvLoad (LIB_NAME (platform os)) (main_lib os)]
      ++ resolve_events os (main_lib os)
      ++ (if abi_valid os then [EvCerr MSG_MISSING] else [])
      ++ [EvClose (main_lib os)]).
Proof.
  intros H. apply truthy_true in H.
  unfold abi_valid.
  unfold run_main, main, LOAD_LIB, CLOSE_LIB, cerr_put.
  unfold bind at 1 2. unfold emit at 1. unfold ret at 1.
  fold (main_lib os). rewrite H. cbn [negb app].
  unfold bind. rewrite !loadAbi_run. cbn [fst].
  destruct (truthy _ && _ && _ && _ && _); reflexivity.
Qed.

Lemma main_cases (os : OS) : main_lib os = NULL \/ main_lib os <> NULL.
Proof.
  destruct (Z.eq_dec (main_lib os) NULL); [left | right]; assumption.
Qed.

Lemma all_truthy_true (p1 p2 p3 p4 p5 : Ptr) :
  truthy p1 && truthy p2 && truthy p3 && truthy p4 && truthy p5 = true <->
  p1 <> NULL /\ p2 <> NULL /\ p3 <> NULL /\ p4 <> NULL /\ p5 <> NULL.
Proof.
  rewrite !andb_true_iff, !truthy_true. tauto.
Qed.

Lemma all_truthy_false (p1 p2 p3 p4 p5 : Ptr) :
  truthy p1 && truthy p2 && truthy p3 && truthy p4 && truthy p5 = false <->
  p1 = NULL \/ p2 = NULL \/ p3 = NULL \/ p4 = NULL \/ p5 = NULL.
Proof.
  rewrite !andb_false_iff, !truthy_false. tauto.
Qed.

(** The oracle record does not restrict the outcomes: any five answers are
    the answers of some operating system. *)
Lemma every_outcome_is_covered (pf : Platform) (h : LibHandle)
      (p1 p2 p3 p4 p5 : Ptr) :
  main_lib (os_with pf h p1 p2 p3 p4 p5) = h /\
  main_abi (os_with pf h p1 p2 p3 p4 p5) = mkAbi p1 p2 p3 p4 p5.
Proof.
  split; [reflexivity | rewrite main_abi_eq; reflexivity].
Qed.

(** In a run that got past the load, [cerr] holds the missing-functions
    message exactly when [loadAbi] returned [true]. *)
Lemma main_report_follows_loadAbi (os : OS) :
  main_lib os <> NULL ->
  stderr_text (trace os) = (if abi_valid os then MSG_MISSING else "").
Proof.
  intros H. unfold trace. rewrite (main_run_loaded os H).
  destruct (abi_valid os); reflexivity.
Qed.

Lemma boundary_loaded (os : OS) :
  main_lib os <> NULL -> boundary (trace os) = code_lifecycle os.
Proof.
  intros H. unfold trace. rewrite (main_run_loaded os H).
  destruct (abi_valid os); reflexivity.
Qed.

Lemma calls_none (os : OS) : filter is_call (trace os) = [].
Proof.
  unfold trace.
  destruct (main_cases os) as [H | H].
  - rewrite (main_run_absent os H). reflexivity.
  - rewrite (main_run_loaded os H). destruct (abi_valid os); reflexivity.
Qed.

Lemma closes_loaded (os : OS) :
  main_lib os <> NULL ->
  filter is_close (trace os) = [EvClose (main_lib os)].
Proof.
  intros H. unfold trace. rewrite (main_run_loaded os H).
  destruct (abi_valid os); reflexivity.
Qed.

Lemma exit_loaded (os : OS) : main_lib os <> NULL -> exit_code os = 0.
Proof.
  intros H. unfold exit_code. rewrite (main_run_loaded os H). reflexivity.
Qed.

(** ** Status Code Vocabulary *)

(** C8. The status constants declared by the source are exactly four,
    named SUCCESS, NULL_POINTER, INVALID_ARGUMENT and INTERNAL_ERROR, with
    the pairwise-distinct integer values 0, 1, 2 and 3. *)
Theorem status_codes_four_distinct :
  map fst status_constants =
    [ "CABI_STATUS_SUCCESS"; "CABI_STATUS_NULL_POINTER";
      "CABI_STATUS_INVALID_ARGUMENT"; "CABI_STATUS_INTERNAL_ERROR" ]
  /\ map snd status_constants = [0; 1; 2; 3]
  /\ length status_constants = 4%nat
  /\ NoDup (map snd status_constants)
  /\ CABI_STATUS_SUCCESS <> CABI_STATUS_NULL_POINTER
  /\ CABI_STATUS_SUCCESS <> CABI_STATUS_INVALID_ARGUMENT
  /\ CABI_STATUS_SUCCESS <> CABI_STATUS_INTERNAL_ERROR
  /\ CABI_STATUS_NULL_POINTER <> CABI_STATUS_INVALID_ARGUMENT
  /\ CABI_STATUS_NULL_POINTER <> CABI_STATUS_INTERNAL_ERROR
  /\ CABI_STATUS_INVALID_ARGUMENT <> CABI_STATUS_INTERNAL_ERROR.
Proof.
  repeat split; try discriminate.
  cbn. repeat constructor; cbn; intuition discriminate.
Qed.

(** ** Symbol Resolver / ABI Table *)

(** C2. [loadAbi] asks the loader for exactly five symbols, the names
    cabi_init_tracing, cabi_node_new, cabi_node_listen, cabi_node_dial and
    cabi_node_free in this order, stores the loader's answer for each name
    in the field of the same entry point (InitTracing, NewNode, ListenNode,
    DialNode, FreeNode), and returns [true] if and only if all five answers
    of the loader are non-null; it returns [false] if and only if at least
    one of them is null. *)
Theorem loadAbi_valid_iff_all_resolved
        (os : OS) (lib : LibHandle) (abi : CabiRustLibp2p) (tr : list Event) :
  let r := loadAbi os lib abi tr in
  let ok := fst (fst r) in
  let abi' := snd (fst r) in
  snd r = tr ++ [ EvGetProc lib "cabi_init_tracing"
                            (dl_sym os lib "cabi_init_tracing");
                  EvGetProc lib "cabi_node_new"
                            (dl_sym os lib "cabi_node_new");
                  EvGetProc lib "cabi_node_listen"
                            (dl_sym os lib "cabi_node_listen");
                  EvGetProc lib "cabi_node_dial"
                            (dl_sym os lib "cabi_node_dial");
                  EvGetProc lib "cabi_node_free"
                            (dl_sym os lib "cabi_node_free") ]
  /\ abi' = mkAbi (dl_sym os lib "cabi_init_tracing")
                  (dl_sym os lib "cabi_node_new")
                  (dl_sym os lib "cabi_node_listen")
                  (dl_sym os lib "cabi_node_dial")
                  (dl_sym os lib "cabi_node_free")
  /\ (ok = true <->
      dl_sym os lib "cabi_init_tracing" <> NULL
      /\ dl_sym os lib "cabi_node_new" <> NULL
      /\ dl_sym os lib "cabi_node_listen" <> NULL
      /\ dl_sym os lib "cabi_node_dial" <> NULL
      /\ dl_sym os lib "cabi_node_free" <> NULL)
  /\ (ok = false <->
      dl_sym os lib "cabi_init_tracing" = NULL
      \/ dl_sym os lib "cabi_node_new" = NULL
      \/ dl_sym os lib "cabi_node_listen" = NULL
      \/ dl_sym os lib "cabi_node_dial" = NULL
      \/ dl_sym os lib "cabi_node_free" = NULL)
  /\ snd r = tr ++ [ EvGetProc lib "cabi_init_tracing" (InitTracing abi');
                     EvGetProc lib "cabi_node_new" (NewNode abi');
                     EvGetProc lib "cabi_node_listen" (ListenNode abi');
                     EvGetProc lib "cabi_node_dial" (DialNode abi');
                     EvGetProc lib "cabi_node_free" (FreeNode abi') ]
  /\ (ok = true <->
      InitTracing abi' <> NULL /\ NewNode abi' <> NULL /\
      ListenNode abi' <> NULL /\ DialNode abi' <> NULL /\
      FreeNode abi' <> NULL)
  /\ (ok = false <->
      InitTracing abi' = NULL \/ NewNode abi' = NULL \/
      ListenNode abi' = NULL \/ DialNode abi' = NULL \/
      FreeNode abi' = NULL).
Proof.
  cbv zeta. rewrite loadAbi_run. cbn [fst snd].
  unfold resolved_abi, resolve_events.
  cbn [InitTracing NewNode ListenNode DialNode FreeNode].
  repeat (split; [reflexivity |]).
  split; [apply all_truthy_true |].
  split; [apply all_truthy_false |].
  split; [reflexivity |].
  split; [apply all_truthy_true | apply all_truthy_false].
Qed.

(** C9. Whatever [loadAbi] returns and whatever the table held before,
    afterwards each of the five fields is the answer of the lookup of its
    symbol name; a failed [loadAbi] can therefore leave a table in which
    some fields are set and others are null, the failure showing in the
    returned boolean alone. *)
Theorem loadAbi_overwrites_every_field :
  (forall (os : OS) (lib : LibHandle) (abi : CabiRustLibp2p) (tr : list Event),
      let abi' := snd (fst (loadAbi os lib abi tr)) in
      InitTracing abi' = dl_sym os lib "cabi_init_tracing"
      /\ NewNode abi' = dl_sym os lib "cabi_node_new"
      /\ ListenNode abi' = dl_sym os lib "cabi_node_listen"
      /\ DialNode abi' = dl_sym os lib "cabi_node_dial"
      /\ FreeNode abi' = dl_sym os lib "cabi_node_free")
  /\ (let r := fst (loadAbi os_no_free 4096 abi_default []) in
      fst r = false
      /\ snd r = mkAbi 4112 4128 4144 4160 NULL).
Proof.
  split.
  - intros os lib abi tr. cbv zeta. rewrite loadAbi_run.
    cbn [fst snd]. unfold resolved_abi. cbn. repeat split.
  - cbv zeta. rewrite loadAbi_run. split; reflexivity.
Qed.

Lemma held_none (os : OS) : held (trace os) = [].
Proof.
  unfold trace.
  destruct (main_cases os) as [H | H].
  - rewrite (main_run_absent os H). reflexivity.
  - rewrite (main_run_loaded os H).
    pose proof (proj2 (truthy_true _) H) as Ht.
    unfold held. destruct (abi_valid os); cbn; rewrite Ht; cbn;
      rewrite Z.eqb_refl; reflexivity.
Qed.

(** ** Host Driver *)

(** C1. The polarity of the check in [main] is the reverse of the one
    claimed: when all five symbols resolve and [loadAbi] returns [true],
    [main] writes the missing-functions message; when [cabi_node_free] does
    not resolve and [loadAbi] returns [false], [main] writes nothing. *)
Theorem missing_message_printed_for_complete_table :
  (main_lib os_complete <> NULL
   /\ abi_valid os_complete = true
   /\ stderr_text (trace os_complete) = MSG_MISSING)
  /\ (main_lib os_no_free <> NULL
      /\ abi_valid os_no_free = false
      /\ stderr_text (trace os_no_free) = "").
Proof.
  repeat split; try discriminate; vm_compute; reflexivity.
Qed.

(** C4. When the loader returns a null handle, [main] writes the load
    error naming the library to [cerr], exits with code 1, performs no
    symbol lookup, and its only call across the boundary is the failed
    load itself. *)
Theorem load_failure_reported_and_fatal (os : OS) :
  main_lib os = NULL ->
  stderr_text (trace os) =
    String.append MSG_LOAD_ERROR (String.append (LIB_NAME (platform os)) nl)
  /\ exit_code os = 1
  /\ exit_code os <> 0
  /\ filter is_get_proc (trace os) = []
  /\ boundary (trace os) = [EvLoad (LIB_NAME (platform os)) NULL].
Proof.
  intros H. unfold exit_code, trace. rewrite (main_run_absent os H).
  cbn [fst snd]. repeat split. discriminate.
Qed.

Lemma load_failure_reported_and_fatal_witness :
  main_lib os_absent = NULL
  /\ stderr_text (trace os_absent) =
       String.append MSG_LOAD_ERROR (String.append "cabi_rust_libp2p.so" nl)
  /\ exit_code os_absent = 1.
Proof.
  split; [reflexivity |].
  pose proof (load_failure_reported_and_fatal os_absent eq_refl) as H.
  split; [exact (proj1 H) | exact (proj1 (proj2 H))].
Defined.

(** C6. Whenever the library loads, [main] returns 0, whether or not
    something was written to [cerr] on the way. *)
Theorem library_loaded_exit_zero (os : OS) :
  main_lib os <> NULL -> exit_code os = 0.
Proof.
  apply exit_loaded.
Qed.

Lemma library_loaded_exit_zero_witness :
  main_lib os_complete <> NULL
  /\ stderr_text (trace os_complete) = MSG_MISSING
  /\ exit_code os_complete = 0.
Proof.
  assert (H : main_lib os_complete <> NULL) by discriminate.
  split; [exact H |].
  split; [reflexivity | exact (library_loaded_exit_zero os_complete H)].
Defined.

(** C7. In every run the library is released exactly once if the load
    returned a non-null handle, and that handle is the one released; it is
    not released at all if the load returned null; at the end of the run no
    acquired handle is still held. *)
Theorem library_released_once_iff_acquired (os : OS) :
  filter is_close (trace os) =
    (if truthy (main_lib os) then [EvClose (main_lib os)] else [])
  /\ held (trace os) = [].
Proof.
  split; [| apply held_none].
  destruct (main_cases os) as [H | H].
  - rewrite (proj2 (truthy_false _) H).
    unfold trace. rewrite (main_run_absent os H). reflexivity.
  - rewrite (proj2 (truthy_true _) H). apply closes_loaded, H.
Qed.

(** C10. No run of [main] contains a call through a function pointer:
    none of InitTracing, NewNode, ListenNode, DialNode and FreeNode is
    invoked, before or after the release, valid table or not. *)
Theorem no_resolved_function_invoked (os : OS) :
  filter is_call (trace os) = []
  /\ existsb is_call (trace os) = false.
Proof.
  split; [apply calls_none |].
  pose proof (calls_none os) as H.
  induction (trace os) as [| e tr IH]; [reflexivity |].
  cbn in *. destruct (is_call e); [discriminate | auto].
Qed.

(** C3, as stated, fails: with [cabi_node_free] missing the library loads
    and the table is invalid, yet nothing is written to [cerr] and the exit
    code is 0, so it is not the case that a single error is surfaced and
    the exit code is non-zero. *)
Lemma invalid_table_silent_exit_zero :
  main_lib os_no_free <> NULL
  /\ abi_valid os_no_free = false
  /\ ~ (filter is_call (trace os_no_free) = []
        /\ (exists msg, filter is_cerr (trace os_no_free) = [EvCerr msg])
        /\ filter is_close (trace os_no_free) = [EvClose (main_lib os_no_free)]
        /\ exit_code os_no_free <> 0).
Proof.
  split; [discriminate |]. split; [reflexivity |].
  intros (_ & _ & _ & Hexit). apply Hexit. reflexivity.
Qed.

(** C3, amended. When the library loads and the table is invalid, [main]
    invokes no resolved function, releases the library handle exactly
    once, holds no handle at the end, and exits with code 0. *)
Theorem invalid_table_teardown (os : OS) :
  main_lib os <> NULL ->
  abi_valid os = false ->
  filter is_call (trace os) = []
  /\ filter is_close (trace os) = [EvClose (main_lib os)]
  /\ held (trace os) = []
  /\ exit_code os = 0.
Proof.
  intros Hlib _.
  repeat split.
  - apply calls_none.
  - apply closes_loaded, Hlib.
  - apply held_none.
  - apply exit_loaded, Hlib.
Qed.

Lemma invalid_table_teardown_witness :
  main_lib os_no_free <> NULL
  /\ abi_valid os_no_free = false
  /\ filter is_close (trace os_no_free) = [EvClose 4096]
  /\ exit_code os_no_free = 0.
Proof.
  assert (Hlib : main_lib os_no_free <> NULL) by discriminate.
  assert (Hbad : abi_valid os_no_free = false) by reflexivity.
  pose proof (invalid_table_teardown os_no_free Hlib Hbad) as H.
  split; [exact Hlib |]. split; [exact Hbad |].
  split; [exact (proj1 (proj2 H)) | exact (proj2 (proj2 (proj2 H)))].
Defined.

(** C5, as stated, fails: with the library loaded and all five symbols
    resolved, the run does not contain the lifecycle of the specification,
    not even with the listen and dial steps left out: tracing is not
    initialized, no node is created and none is destroyed. *)
Lemma full_lifecycle_not_executed :
  main_lib os_complete <> NULL
  /\ abi_valid os_complete = true
  /\ subseqb (spec_lifecycle os_complete) (trace os_complete) = false
  /\ existsb (event_eqb (EvCall (InitTracing (main_abi os_complete))))
             (trace os_complete) = false.
Proof.
  split; [discriminate |]. repeat split; vm_compute; reflexivity.
Qed.

(** C5, amended. On the success path (library loaded, table valid) the
    calls of [main] across the boundary are, in this order: the load, the
    five lookups of [loadAbi] in their fixed order, and the release of the
    library; tracing initialization, node creation, listen, dial and node
    destruction do not occur. *)
Theorem success_path_lifecycle (os : OS) :
  main_lib os <> NULL ->
  abi_valid os = true ->
  boundary (trace os) =
    [ EvLoad (LIB_NAME (platform os)) (main_lib os);
      EvGetProc (main_lib os) "cabi_init_tracing" (InitTracing (main_abi os));
      EvGetProc (main_lib os) "cabi_node_new" (NewNode (main_abi os));
      EvGetProc (main_lib os) "cabi_node_listen" (ListenNode (main_abi os));
      EvGetProc (main_lib os) "cabi_node_dial" (DialNode (main_abi os));
      EvGetProc (main_lib os) "cabi_node_free" (FreeNode (main_abi os));
      EvClose (main_lib os) ]
  /\ filter is_call (trace os) = [].
Proof.
  intros Hlib _. split; [| apply calls_none].
  rewrite (boundary_loaded os Hlib), main_abi_eq. reflexivity.
Qed.

Lemma success_path_lifecycle_witness :
  main_lib os_complete <> NULL
  /\ abi_valid os_complete = true
  /\ boundary (trace os_complete) =
       [ EvLoad "cabi_rust_libp2p.so" 4096;
         EvGetProc 4096 "cabi_init_tracing" 4112;
         EvGetProc 4096 "cabi_node_new" 4128;
         EvGetProc 4096 "cabi_node_listen" 4144;
         EvGetProc 4096 "cabi_node_dial" 4160;
         EvGetProc 4096 "cabi_node_free" 4176;
         EvClose 4096 ].
Proof.
  assert (Hlib : main_lib os_complete <> NULL) by discriminate.
  assert (Hok : abi_valid os_complete = true) by reflexivity.
  split; [exact Hlib |]. split; [exact Hok |].
  exact (proj1 (success_path_lifecycle os_complete Hlib Hok)).
Defined.

(** ** Further properties of the driver *)

(** X1. The exit code of [main] is decided by the load alone: it is 1 when
    the loader returned null and 0 otherwise, so it is non-zero exactly
    when the load failed, whatever the symbol lookups answer. *)
Theorem exit_code_decided_by_load (os : OS) :
  exit_code os = (if truthy (main_lib os) then 0 else 1)
  /\ (exit_code os <> 0 <-> main_lib os = NULL).
Proof.
  destruct (main_cases os) as [H | H].
  - rewrite (proj2 (truthy_false _) H).
    unfold exit_code. rewrite (main_run_absent os H). cbn [fst].
    split; [reflexivity |]. split; [intros _; exact H | discriminate].
  - rewrite (proj2 (truthy_true _) H), (exit_loaded os H).
    split; [reflexivity |]. split; [intros F; now elim F | intros E; now elim H].
Qed.

(** X2. What a run writes to [cerr] is one of three texts: the load error
    followed by the library file name and a newline when the load failed,
    the missing-functions line when the load succeeded and [loadAbi]
    returned [true], and nothing when [loadAbi] returned [false]. *)
Theorem stderr_is_one_of_three (os : OS) :
  stderr_text (trace os) =
    (if truthy (main_lib os)
     then (if abi_valid os then MSG_MISSING else "")
     else String.append MSG_LOAD_ERROR
            (String.append (LIB_NAME (platform os)) nl)).
Proof.
  destruct (main_cases os) as [H | H].
  - rewrite (proj2 (truthy_false _) H).
    unfold trace. rewrite (main_run_absent os H). reflexivity.
  - rewrite (proj2 (truthy_true _) H). apply main_report_follows_loadAbi, H.
Qed.

(** X3. In a run that got past the load, [main] writes the
    missing-functions line if and only if all five lookups returned a
    non-null address, and writes nothing if and only if at least one of
    them returned null. *)
Theorem missing_line_iff_all_resolved (os : OS) :
  main_lib os <> NULL ->
  let lib := main_lib os in
  (stderr_text (trace os) = MSG_MISSING <->
   dl_sym os lib "cabi_init_tracing" <> NULL
   /\ dl_sym os lib "cabi_node_new" <> NULL
   /\ dl_sym os lib "cabi_node_listen" <> NULL
   /\ dl_sym os lib "cabi_node_dial" <> NULL
   /\ dl_sym os lib "cabi_node_free" <> NULL)
  /\ (stderr_text (trace os) = "" <->
      dl_sym os lib "cabi_init_tracing" = NULL
      \/ dl_sym os lib "cabi_node_new" = NULL
      \/ dl_sym os lib "cabi_node_listen" = NULL
      \/ dl_sym os lib "cabi_node_dial" = NULL
      \/ dl_sym os lib "cabi_node_free" = NULL).
Proof.
  intros H. cbv zeta.
  rewrite (main_report_follows_loadAbi os H).
  rewrite <- all_truthy_true, <- all_truthy_false.
  pose proof (abi_valid_eq os) as E. rewrite main_abi_eq in E.
  unfold resolved_abi in E.
  cbn [InitTracing NewNode ListenNode DialNode FreeNode] in E.
  rewrite <- E.
  destruct (abi_valid os); split; split; intros X;
    try reflexivity; try discriminate X.
Qed.

Lemma missing_line_iff_all_resolved_witness :
  main_lib os_no_free <> NULL
  /\ (stderr_text (trace os_no_free) = "" <->
      dl_sym os_no_free 4096 "cabi_init_tracing" = NULL
      \/ dl_sym os_no_free 4096 "cabi_node_new" = NULL
      \/ dl_sym os_no_free 4096 "cabi_node_listen" = NULL
      \/ dl_sym os_no_free 4096 "cabi_node_dial" = NULL
      \/ dl_sym os_no_free 4096 "cabi_node_free" = NULL).
Proof.
  assert (H : main_lib os_no_free <> NULL) by discriminate.
  split; [exact H |].
  exact (proj2 (missing_line_iff_all_resolved os_no_free H)).
Defined.

(** X4. Every run of [main] respects the handle discipline: each of its
    symbol lookups and its release name a handle that was loaded with a
    non-null result and has not been released yet; in particular there is
    no lookup on a null handle, no lookup after the release and no second
    release. *)
Theorem main_respects_handle_discipline (os : OS) :
  disciplined [] (trace os) = true.
Proof.
  unfold trace.
  destruct (main_cases os) as [H | H].
  - rewrite (main_run_absent os H). reflexivity.
  - rewrite (main_run_loaded os H).
    pose proof (proj2 (truthy_true _) H) as Ht.
    destruct (abi_valid os); cbn; rewrite Ht; cbn;
      rewrite !Z.eqb_refl; reflexivity.
Qed.

(** X5. Every run makes exactly one load attempt, as its first action, and
    the file it asks for is the platform's library name; there is no retry
    and no second file. *)
Theorem single_load_attempt (os : OS) :
  filter is_load (trace os) =
    [EvLoad (LIB_NAME (platform os)) (main_lib os)]
  /\ hd_error (trace os) =
       Some (EvLoad (LIB_NAME (platform os)) (main_lib os)).
Proof.
  unfold trace.
  destruct (main_cases os) as [H | H].
  - rewrite (main_run_absent os H), H. split; reflexivity.
  - rewrite (main_run_loaded os H).
    destruct (abi_valid os); split; reflexivity.
Qed.

(** X6. A run depends on the operating system through six answers only:
    the handle returned for the platform's library name and the addresses
    returned for the five symbol names on that handle. Two systems of the
    same platform that agree on these six produce the same exit code and
    the same trace, whatever else they would load or export. *)
Theorem run_depends_on_six_answers (os1 os2 : OS) :
  platform os1 = platform os2 ->
  main_lib os1 = main_lib os2 ->
  resolved_abi os1 (main_lib os1) = resolved_abi os2 (main_lib os2) ->
  run_main os1 = run_main os2.
Proof.
  intros Hpf Hlib Habi.
  assert (Hev : resolve_events os1 (main_lib os1)
                = resolve_events os2 (main_lib os2)).
  { unfold resolved_abi in Habi. injection Habi as E1 E2 E3 E4 E5.
    unfold resolve_events. rewrite E1, E2, E3, E4, E5, Hlib. reflexivity. }
  assert (Hok : abi_valid os1 = abi_valid os2).
  { rewrite !abi_valid_eq, !main_abi_eq, Habi. reflexivity. }
  destruct (main_cases os1) as [H | H].
  - rewrite (main_run_absent os1 H).
    rewrite Hlib in H. rewrite (main_run_absent os2 H), Hpf. reflexivity.
  - rewrite (main_run_loaded os1 H).
    rewrite Hlib in H. rewrite (main_run_loaded os2 H).
    rewrite Hev, Hok, Hpf, Hlib. reflexivity.
Qed.

Lemma run_depends_on_six_answers_witness :
  dl_open os_complete "other.so" <> dl_open os_crowded "other.so"
  /\ dl_sym os_complete 4096 "cabi_node_ping" <>
     dl_sym os_crowded 4096 "cabi_node_ping"
  /\ run_main os_complete = run_main os_crowded.
Proof.
  split; [discriminate |]. split; [discriminate |].
  apply (run_depends_on_six_answers os_complete os_crowded); reflexivity.
Defined.

(** X7. In every run that got past the load, the release of the library is
    the last action: the trace ends with the release of the loaded handle
    and nothing (no lookup, no call, no output) follows it. *)
Theorem release_is_last_action (os : OS) :
  main_lib os <> NULL ->
  exists pre : list Event,
    trace os = pre ++ [EvClose (main_lib os)]
    /\ filter is_close pre = [].
Proof.
  intros H. unfold trace. rewrite (main_run_loaded os H). cbn [snd].
  exists ([EvLoad (LIB_NAME (platform os)) (main_lib os)]
            ++ resolve_events os (main_lib os)
            ++ (if abi_valid os then [EvCerr MSG_MISSING] else [])).
  split.
  - rewrite <- !app_assoc. reflexivity.
  - destruct (abi_valid os); reflexivity.
Qed.

Lemma release_is_last_action_witness :
  main_lib os_complete <> NULL
  /\ exists pre : list Event,
       trace os_complete = pre ++ [EvClose 4096]
       /\ filter is_close pre = [].
Proof.
  assert (H : main_lib os_complete <> NULL) by discriminate.
  split; [exact H | exact (release_is_last_action os_complete H)].
Defined.
